(** * The shared HTTP client of the front end: [src/lib/axios-client.ts]

    A shallow embedding of the two pieces of logic of the module:
    [getBaseURL], which resolves the API base URL from the build
    environment, and the rejection handler installed with
    [API.interceptors.response.use], which normalises every failure into a
    [CustomError] before it is rejected back to the caller.

    JavaScript strings are sequences of UTF-16 code units and are modelled
    as lists of code units; JavaScript values are a small inductive type
    with the language's truthiness; the console and the window location are
    an explicit world threaded through a state monad. *)

From Stdlib Require Import List NArith ZArith Bool Ascii String Lia.
From Stdlib Require Import DecimalString.
From Stdlib Require Import Floats.SpecFloat.
Import ListNotations.

Local Open Scope N_scope.

(** ** Strings *)

Module JsString.

(** A string is the list of its UTF-16 code units. *)
Definition t := list N.

(** The code units of an ASCII literal of the source. *)
Definition lit (s : string) : t := map N_of_ascii (list_ascii_of_string s).

Fixpoint eqb (a b : t) : bool :=
  match a, b with
  | [], [] => true
  | x :: a', y :: b' => (x =? y) && eqb a' b'
  | _, _ => false
  end.

(** [String.prototype.startsWith(p)] at position 0. *)
Fixpoint startsWith (p s : t) : bool :=
  match p, s with
  | [], _ => true
  | x :: p', y :: s' => (x =? y) && startsWith p' s'
  | _ :: _, [] => false
  end.

(** [String.prototype.includes(p)], used to state properties only. *)
Fixpoint includes (p s : t) : bool :=
  startsWith p s ||
  match s with
  | [] => false
  | _ :: s' => includes p s'
  end.

(** The code units that [trim] removes: ECMAScript's WhiteSpace and
    LineTerminator productions. *)
Definition isWhiteSpace (c : N) : bool :=
  (c =? 9) || (c =? 10) || (c =? 11) || (c =? 12) || (c =? 13) ||
  (c =? 32) || (c =? 160) || (c =? 5760) ||
  ((8192 <=? c) && (c <=? 8202)) ||
  (c =? 8232) || (c =? 8233) || (c =? 8239) || (c =? 8287) ||
  (c =? 12288) || (c =? 65279).

Fixpoint trimStart (s : t) : t :=
  match s with
  | [] => []
  | c :: s' => if isWhiteSpace c then trimStart s' else s
  end.

Definition trimEnd (s : t) : t := rev (trimStart (rev s)).

(** [String.prototype.trim()]. *)
Definition trim (s : t) : t := trimEnd (trimStart s).

Definition slash : N := 47.

(** [s.replace(/\/$/, '')]: the pattern has no [m] flag, so [$] holds at the
    end of the input only, and the search, which tries the positions from
    left to right, succeeds exactly at the position whose remaining input is
    the single code unit [/]; that code unit is replaced by nothing. *)
Fixpoint replaceTrailingSlash (s : t) : t :=
  match s with
  | [] => []
  | c :: s' =>
      match s' with
      | [] => if c =? slash then [] else [c]
      | _ :: _ => c :: replaceTrailingSlash s'
      end
  end.

End JsString.

Definition jsstring : Type := JsString.t.

(** [js "text"] is the string whose code units are the characters of the
    ASCII literal ["text"]. *)
Definition js (s : string) : jsstring := JsString.lit s.

(** ** Values *)

#[local] Set Warnings "-register-all".

(** The values a failure object and a response body are made of. Numbers are
    IEEE 754 doubles; an object is the list of its own enumerable
    properties, in creation order. *)

Inductive JsValue : Type :=
  | JUndefined
  | JNull
  | JBool (b : bool)
  | JNum (x : spec_float)
  | JStr (s : jsstring)
  | JArr (items : list JsValue)
  | JObj (props : list (jsstring * JsValue)).

Definition Props := list (jsstring * JsValue).

(** ToBoolean. *)
Definition truthy (v : JsValue) : bool :=
  match v with
  | JUndefined | JNull => false
  | JBool b => b
  | JNum (S754_zero _) | JNum S754_nan => false
  | JNum _ => true
  | JStr s => negb (JsString.eqb s [])
  | JArr _ | JObj _ => true
  end.

(** [a || b]. *)
Definition or_else (a b : JsValue) : JsValue := if truthy a then a else b.

(** The double [401]: mantissa [401 * 2^44] on 53 bits, exponent [-44]. *)
Definition num401 : spec_float := S754_finite false 7054466603810816 (-44).

(** [v === n] for a number literal [n]. *)
Definition strictEqNum (v : JsValue) (n : spec_float) : bool :=
  match v with
  | JNum x => SFeqb x n
  | _ => false
  end.

(** [v === s] for a string literal [s]. *)
Definition strictEqStr (v : JsValue) (s : jsstring) : bool :=
  match v with
  | JStr x => JsString.eqb x s
  | _ => false
  end.

Fixpoint lookup (k : jsstring) (ps : Props) : option JsValue :=
  match ps with
  | [] => None
  | (k', v) :: ps' => if JsString.eqb k' k then Some v else lookup k ps'
  end.

(** Defining property [k] in an object literal under construction: an
    existing property keeps its place and takes the new value, a new one is
    added last. *)
Fixpoint define (k : jsstring) (v : JsValue) (ps : Props) : Props :=
  match ps with
  | [] => [(k, v)]
  | (k', v') :: ps' =>
      if JsString.eqb k' k then (k', v) :: ps' else (k', v') :: define k v ps'
  end.

(** [v.k] for a key [k] that no built-in prototype defines ([data],
    [status], [errorCode]): only an object's own property answers, every
    other value that can be read from gives [undefined]. *)
Definition getField (v : JsValue) (k : jsstring) : JsValue :=
  match v with
  | JObj ps => match lookup k ps with Some x => x | None => JUndefined end
  | _ => JUndefined
  end.

(** [v?.k]. *)
Definition getFieldOpt (v : JsValue) (k : jsstring) : JsValue :=
  match v with
  | JUndefined | JNull => JUndefined
  | _ => getField v k
  end.

(** ** The world: console and window *)

Inductive Level : Type := LevelLog | LevelError.

Record LogEntry : Type := mkLog { level : Level; args : list JsValue }.

Record World : Type := mkWorld {
  console : list LogEntry;        (* what was written, oldest first *)
  navigations : list jsstring;    (* values assigned to window.location.href *)
}.

(** Computations that read and write the world. *)
Definition Eff (A : Type) : Type := World -> A * World.

Definition ret {A} (a : A) : Eff A := fun w => (a, w).

Definition bind {A B} (m : Eff A) (k : A -> Eff B) : Eff B :=
  fun w => let (a, w') := m w in k a w'.

Notation "x <- m ;; k" := (bind m (fun x => k))
  (at level 61, m at next level, right associativity).
Notation "m ;;; k" := (bind m (fun _ => k))
  (at level 61, right associativity).

Definition console_error (xs : list JsValue) : Eff unit :=
  fun w => (tt, mkWorld (console w ++ [mkLog LevelError xs]) (navigations w)).

Definition console_log (xs : list JsValue) : Eff unit :=
  fun w => (tt, mkWorld (console w ++ [mkLog LevelLog xs]) (navigations w)).

Definition set_location_href (u : jsstring) : Eff unit :=
  fun w => (tt, mkWorld (console w) (navigations w ++ [u])).

(** ** [getBaseURL] *)

(** [import.meta.env] as far as the module reads it. *)
Record ImportMetaEnv : Type := mkEnv {
  VITE_API_BASE_URL : option jsstring;   (* [None] is [undefined] *)
  PROD : bool;
  DEV : bool;
}.

Definition line_feed : jsstring := [10].

(** The argument of the [console.error] call of [getBaseURL]. *)
Definition missingConfigMessage : jsstring :=
  [10060] ++ js " VITE_API_BASE_URL is not set in production environment!"
    ++ line_feed ++
  js "Please set it in your Vercel project settings:" ++ line_feed ++
  js "Settings " ++ [8594] ++ js " Environment Variables " ++ [8594]
    ++ js " Add VITE_API_BASE_URL" ++ line_feed ++
  js "Example value: https://task-manager-l2ug.onrender.com/api".

Definition hasProtocol (s : jsstring) : bool :=
  JsString.startsWith (js "http://") s || JsString.startsWith (js "https://") s.

(** [if (envURL)]: a string is truthy when it is not empty. *)
Definition envSet (e : option jsstring) : option jsstring :=
  match e with
  | Some (c :: s) => Some (c :: s)
  | _ => None
  end.

Definition getBaseURL (env : ImportMetaEnv) : Eff jsstring :=
  match envSet (VITE_API_BASE_URL env) with
  | Some envURL =>
      let trimmedURL := JsString.trim envURL in
      if hasProtocol trimmedURL then
        ret (JsString.replaceTrailingSlash trimmedURL)
      else
        let protocol := if PROD env then js "https://" else js "http://" in
        ret (JsString.replaceTrailingSlash (protocol ++ trimmedURL))
  | None =>
      if PROD env then
        console_error [JStr missingConfigMessage] ;;;
        ret []
      else
        ret (js "http://localhost:4000/api")
  end.

(** ** Module initialisation: [baseURL], its log line and [options] *)

Record Options : Type := mkOptions {
  baseURL : JsValue;
  withCredentials : bool;
  timeout : N;
}.

(** The first argument of the [console.log] call: a link emoji, which is
    the surrogate pair [D83D DD17], and the label. *)
Definition baseURLLabel : jsstring := [55357; 56599] ++ js " API Base URL:".

Definition initModule (env : ImportMetaEnv) : Eff Options :=
  url <- getBaseURL env ;;
  (if DEV env
   then console_log [JStr baseURLLabel;
                     or_else (JStr url) (JStr (js "(relative URLs)"))]
   else ret tt) ;;;
  ret (mkOptions (or_else (JStr url) JUndefined) true 10000).

(** ** The response interceptor *)

(** The failure object handed to the rejection handler. [own] lists its own
    enumerable properties, which are what a spread copies; [inherited] lists
    what a property read also sees: own properties that are not enumerable
    and those of the prototype chain. *)
Record ErrorObject : Type := mkError {
  own : Props;
  inherited : Props;
}.

(** [error.k]. *)
Definition readProp (error : ErrorObject) (k : jsstring) : JsValue :=
  match lookup k (own error) with
  | Some v => v
  | None =>
      match lookup k (inherited error) with
      | Some v => v
      | None => JUndefined
      end
  end.

(** How the promise returned by a handler settles. *)
Inductive Settled : Type :=
  | Fulfilled (value : JsValue)
  | Rejected (reason : JsValue).

Definition networkFallbackMessage : jsstring :=
  js "Network error. Please check your API configuration.".

(** The fulfilment handler: [(response) => response]. *)
Definition onFulfilled (response : JsValue) : Eff Settled :=
  ret (Fulfilled response).

(** The body of the rejection handler, [async (error) => ...], for an
    [error] that properties can be read from; [handleRejection] below is
    the handler on any rejection reason. *)
Definition onRejected (error : ErrorObject) : Eff Settled :=
  if negb (truthy (readProp error (js "response"))) then
    console_error [JStr (js "Network error:"); readProp error (js "message")] ;;;
    let customError :=
      JObj (define (js "errorCode") (JStr (js "NETWORK_ERROR"))
           (define (js "message")
              (or_else (readProp error (js "message"))
                       (JStr networkFallbackMessage))
           (own error))) in
    ret (Rejected customError)
  else
    let response := readProp error (js "response") in
    let data := getField response (js "data") in
    let status := getField response (js "status") in
    (if strictEqStr data (js "Unauthorized") && strictEqNum status num401
     then set_location_href (js "/")
     else ret tt) ;;;
    let customError :=
      JObj (define (js "errorCode")
              (or_else (getFieldOpt data (js "errorCode"))
                       (JStr (js "UNKNOWN_ERROR")))
           (own error)) in
    ret (Rejected customError).

(** ** Vocabulary of the properties *)

(** The [errorCode] a settled promise hands to the caller, if it rejected. *)
Definition errorCodeOf (r : Settled) : option JsValue :=
  match r with
  | Rejected e => Some (getField e (js "errorCode"))
  | Fulfilled _ => None
  end.

Definition messageOf (r : Settled) : option JsValue :=
  match r with
  | Rejected e => Some (getField e (js "message"))
  | Fulfilled _ => None
  end.

Definition isNonEmptyString (v : JsValue) : bool :=
  match v with
  | JStr (_ :: _) => true
  | _ => false
  end.

Definition isString (v : JsValue) : bool :=
  match v with
  | JStr _ => true
  | _ => false
  end.

(** The response body of a failure and the [errorCode] it carries. *)
Definition responseOf (error : ErrorObject) : JsValue :=
  readProp error (js "response").

Definition bodyOf (error : ErrorObject) : JsValue :=
  getField (responseOf error) (js "data").

Definition statusOf (error : ErrorObject) : JsValue :=
  getField (responseOf error) (js "status").

(** Whether the body is an object with an [errorCode] property, and its
    value. *)
Definition bodyErrorCodeField (error : ErrorObject) : option JsValue :=
  match bodyOf error with
  | JObj ps => lookup (js "errorCode") ps
  | _ => None
  end.

(** [data?.errorCode] of a failure that carries a response. *)
Definition bodyErrorCode (error : ErrorObject) : JsValue :=
  getFieldOpt (bodyOf error) (js "errorCode").

(** A response with status exactly 401 whose body is literally the text
    [Unauthorized]. *)
Definition Unauthorized401 (error : ErrorObject) : Prop :=
  bodyOf error = JStr (js "Unauthorized") /\ statusOf error = JNum num401.

(** The doubles [42] and [400], and a failure whose response has the given
    body and status: [message] and [response] are own enumerable
    properties of it, as they are on the errors that axios creates. *)
Definition num42 : spec_float := S754_finite false 5910974510923776 (-47).
Definition num400 : spec_float := S754_finite false 7036874417766400 (-44).

Definition failureWithResponse (data status : JsValue) : ErrorObject :=
  mkError
    [(js "message", JStr (js "Request failed"));
     (js "response", JObj [(js "data", data); (js "status", status)])]
    [].

(** A failure without a response, with the given message. *)
Definition failureWithoutResponse (message : JsValue) : ErrorObject :=
  mkError [] [(js "message", message)].

(** What the properties of [getBaseURL] call "the string with exactly one
    trailing slash removed if one is present", said on the reversed string
    rather than by a search from the left. *)
Definition withoutOneTrailingSlash (s : jsstring) : jsstring :=
  match rev s with
  | c :: r => if c =? JsString.slash then rev r else s
  | [] => s
  end.

(** A string that ends neither in a slash nor in a code unit that [trim]
    removes. *)
Definition endsClean (s : jsstring) : bool :=
  match rev s with
  | c :: _ => negb (c =? JsString.slash) && negb (JsString.isWhiteSpace c)
  | [] => true
  end.

Definition allWhiteSpace (s : jsstring) : bool :=
  forallb JsString.isWhiteSpace s.

(** Whether [getBaseURL] finds no usable environment string: the variable
    is undefined or empty. *)
Definition envMissing (env : ImportMetaEnv) : bool :=
  match envSet (VITE_API_BASE_URL env) with
  | Some _ => false
  | None => true
  end.

(** How the transport's promise settles, and its continuation by the pair
    of handlers given to [API.interceptors.response.use]: the first runs on
    fulfilment, the second on rejection. *)
Inductive TransportOutcome : Type :=
  | TransportFulfilled (response : JsValue)
  | TransportRejected (error : ErrorObject).

Definition interceptResponse (o : TransportOutcome) : Eff Settled :=
  match o with
  | TransportFulfilled response => onFulfilled response
  | TransportRejected error => onRejected error
  end.

(** The reason the transport's promise is rejected with is not typed: it
    is any value. [ReasonError] is an object with data properties, such as
    an [Error] instance; [ReasonValue] is a plain value: [undefined],
    [null], a primitive, an array or an object literal. *)
Inductive Reason : Type :=
  | ReasonError (error : ErrorObject)
  | ReasonValue (v : JsValue).

(** The key of index [i]: its decimal writing. *)
Definition indexKey (i : nat) : jsstring :=
  js (NilZero.string_of_uint (Nat.to_uint i)).

Fixpoint indexed (i : nat) (items : list JsValue) : Props :=
  match items with
  | [] => []
  | x :: rest => (indexKey i, x) :: indexed (S i) rest
  end.

(** What a spread copies from a plain value: the properties of an object
    literal, the elements of an array and the code units of a string under
    their indices, nothing from a number or a boolean. *)
Definition ownEnumerable (v : JsValue) : Props :=
  match v with
  | JObj ps => ps
  | JArr items => indexed 0 items
  | JStr s => indexed 0 (map (fun c => JStr [c]) s)
  | _ => []
  end.

(** The reason as the handler reads it. [error.response] throws on [null]
    and [undefined]; on every other value the reads of [response] and
    [message] see the value's own properties only, no built-in prototype
    defining either name. *)
Definition readable (reason : Reason) : option ErrorObject :=
  match reason with
  | ReasonError error => Some error
  | ReasonValue JUndefined | ReasonValue JNull => None
  | ReasonValue v => Some (mkError (ownEnumerable v) [])
  end.

(** How the promise of the rejection handler settles for its caller. When
    the [async] function throws, which it does only while reading
    [error.response], its promise is rejected with the [TypeError] of the
    engine: an [Error] instance that neither owns nor inherits an
    [errorCode]. *)
Inductive HandlerOutcome : Type :=
  | Settles (s : Settled)
  | RejectedWithTypeError.

(** The rejection handler on any reason. The read of [error.response] on
    line 66 comes before every effect. *)
Definition handleRejection (reason : Reason) : Eff HandlerOutcome :=
  match readable reason with
  | None => ret RejectedWithTypeError
  | Some error => s <- onRejected error ;; ret (Settles s)
  end.

(** [customError.errorCode] as the caller reads it from the rejection. *)
Definition rejectionErrorCode (o : HandlerOutcome) : JsValue :=
  match o with
  | Settles (Rejected e) => getField e (js "errorCode")
  | Settles (Fulfilled _) | RejectedWithTypeError => JUndefined
  end.

(** The entry that [getBaseURL] writes when the setting is missing in a
    production build, and the one that the module writes in a development
    build. *)
Definition missingConfigEntry : LogEntry :=
  mkLog LevelError [JStr missingConfigMessage].

Definition baseURLEntry (shown : jsstring) : LogEntry :=
  mkLog LevelLog [JStr baseURLLabel; JStr shown].

(** * Facts about strings *)

Module JsStringFacts.
Import JsString.

Lemma eqb_refl (s : t) : eqb s s = true.
Proof.
  induction s as [|c s IH]; simpl; [reflexivity|].
  now rewrite N.eqb_refl, IH.
Qed.

Lemma eqb_eq (a b : t) : eqb a b = true <-> a = b.
Proof.
  split; [|intros ->; apply eqb_refl].
  revert b; induction a as [|x a IH]; intros [|y b]; simpl; try discriminate.
  - reflexivity.
  - intros H. apply andb_true_iff in H as [Hx Hab].
    apply N.eqb_eq in Hx. now rewrite Hx, (IH b Hab).
Qed.

Lemma startsWith_app (p s : t) : startsWith p (p ++ s) = true.
Proof.
  induction p as [|c p IH]; simpl; [reflexivity|].
  now rewrite N.eqb_refl, IH.
Qed.

Lemma startsWith_inv (p s : t) :
  startsWith p s = true -> exists r, s = p ++ r.
Proof.
  revert s; induction p as [|c p IH]; intros s H; simpl in *.
  - now exists s.
  - destruct s as [|d s]; [discriminate|].
    apply andb_true_iff in H as [Hc Hp]. apply N.eqb_eq in Hc; subst d.
    destruct (IH s Hp) as [r ->]. now exists r.
Qed.

(** ** [replace(/\/$/, '')] *)

Lemma replaceTrailingSlash_snoc (s : t) (c : N) :
  replaceTrailingSlash (s ++ [c]) = if c =? slash then s else s ++ [c].
Proof.
  induction s as [|d s IH].
  - simpl. now destruct (c =? slash).
  - change ((d :: s) ++ [c]) with (d :: (s ++ [c])).
    cbn [replaceTrailingSlash]. rewrite IH.
    destruct (s ++ [c]) eqn:E.
    + now destruct s.
    + now destruct (c =? slash).
Qed.

(** The search from the left removes what the claim describes from the
    right. *)
Lemma replaceTrailingSlash_spec (s : t) :
  replaceTrailingSlash s = withoutOneTrailingSlash s.
Proof.
  unfold withoutOneTrailingSlash.
  destruct (rev s) as [|c r] eqn:E.
  - apply (f_equal (@rev N)) in E. rewrite rev_involutive in E.
    now subst s.
  - apply (f_equal (@rev N)) in E. rewrite rev_involutive in E. simpl in E.
    subst s. rewrite replaceTrailingSlash_snoc.
    now destruct (c =? slash).
Qed.

Lemma replaceTrailingSlash_length (s : t) :
  (List.length (replaceTrailingSlash s) <= List.length s)%nat.
Proof.
  destruct s as [|c s] using rev_ind; [simpl; lia|].
  rewrite replaceTrailingSlash_snoc.
  destruct (c =? slash); rewrite ?length_app; simpl; lia.
Qed.

(** ** [trim] *)

Lemma trimStart_all (s : t) :
  forallb isWhiteSpace s = true -> trimStart s = [].
Proof.
  induction s as [|c s IH]; simpl; [reflexivity|].
  intros H. apply andb_true_iff in H as [Hc Hs]. now rewrite Hc, IH.
Qed.

Lemma trim_all (s : t) : forallb isWhiteSpace s = true -> trim s = [].
Proof. intros H. unfold trim, trimEnd. now rewrite (trimStart_all s H). Qed.

Lemma trimStart_length (s : t) : (List.length (trimStart s) <= List.length s)%nat.
Proof.
  induction s as [|c s IH]; simpl; [lia|].
  destruct (isWhiteSpace c); simpl; lia.
Qed.

Lemma trimEnd_snoc (s : t) (c : N) :
  trimEnd (s ++ [c]) = if isWhiteSpace c then trimEnd s else s ++ [c].
Proof.
  unfold trimEnd. rewrite rev_app_distr. simpl.
  destruct (isWhiteSpace c); [reflexivity|].
  change (c :: rev s) with (rev [c] ++ rev s).
  now rewrite <- rev_app_distr, rev_involutive.
Qed.

Lemma trimEnd_length (s : t) : (List.length (trimEnd s) <= List.length s)%nat.
Proof.
  unfold trimEnd. rewrite length_rev.
  etransitivity; [apply trimStart_length|]. now rewrite length_rev.
Qed.

End JsStringFacts.

(** * Base-URL resolution *)

Lemma hasProtocol_nonempty (s : jsstring) : hasProtocol s = true -> s <> [].
Proof. intros H ->. discriminate H. Qed.

Lemma envSet_nonempty (s : jsstring) : s <> [] -> envSet (Some s) = Some s.
Proof. destruct s; [congruence | reflexivity]. Qed.

Lemma trim_nil : JsString.trim [] = [].
Proof. reflexivity. Qed.

(** The branch taken for a string that is set: no diagnostic is written and
    the result is the trimmed string, given a protocol if it has none, after
    the replacement of a trailing slash. *)
Lemma getBaseURL_set (env : ImportMetaEnv) (w : World) (s : jsstring) :
  VITE_API_BASE_URL env = Some s ->
  s <> [] ->
  getBaseURL env w =
    (JsString.replaceTrailingSlash
       (if hasProtocol (JsString.trim s) then JsString.trim s
        else (if PROD env then js "https://" else js "http://")
               ++ JsString.trim s),
     w).
Proof.
  intros Henv Hs. unfold getBaseURL.
  rewrite Henv, (envSet_nonempty s Hs).
  now destruct (hasProtocol (JsString.trim s)).
Qed.

Lemma trimmed_protocol_nonempty (s : jsstring) :
  hasProtocol (JsString.trim s) = true -> s <> [].
Proof. intros Hp ->. rewrite trim_nil in Hp. discriminate Hp. Qed.

(** C6. An environment string that, once trimmed, begins with [http://] or
    [https://] resolves to that trimmed string with exactly one trailing
    slash removed if one is present; nothing is logged. *)
Theorem getBaseURL_with_protocol
    (env : ImportMetaEnv) (w : World) (s : jsstring) :
  VITE_API_BASE_URL env = Some s ->
  hasProtocol (JsString.trim s) = true ->
  getBaseURL env w = (withoutOneTrailingSlash (JsString.trim s), w).
Proof.
  intros Henv Hp.
  rewrite (getBaseURL_set env w s Henv (trimmed_protocol_nonempty s Hp)), Hp.
  now rewrite JsStringFacts.replaceTrailingSlash_spec.
Qed.

(** The example of the specification: ["https://api.example.com/"] in a
    production build resolves to ["https://api.example.com"]. *)
Lemma getBaseURL_with_protocol_example :
  getBaseURL (mkEnv (Some (js "https://api.example.com/")) true false)
             (mkWorld [] [])
  = (js "https://api.example.com", mkWorld [] []).
Proof.
  exact (getBaseURL_with_protocol
           (mkEnv (Some (js "https://api.example.com/")) true false)
           (mkWorld [] []) (js "https://api.example.com/")
           eq_refl eq_refl).
Defined.

(** C7. A set environment string that, once trimmed, has no [http://] or
    [https://] prefix resolves to ["https://"] followed by the trimmed
    string in a production build and to ["http://"] followed by it
    otherwise, with one trailing slash removed from the result. *)
Theorem getBaseURL_without_protocol
    (env : ImportMetaEnv) (w : World) (s : jsstring) :
  VITE_API_BASE_URL env = Some s ->
  s <> [] ->
  hasProtocol (JsString.trim s) = false ->
  getBaseURL env w =
    (withoutOneTrailingSlash
       ((if PROD env then js "https://" else js "http://")
          ++ JsString.trim s),
     w).
Proof.
  intros Henv Hs Hp.
  rewrite (getBaseURL_set env w s Henv Hs), Hp.
  now rewrite JsStringFacts.replaceTrailingSlash_spec.
Qed.

(** The example of the specification: ["api.example.com"] outside a
    production build resolves to ["http://api.example.com"]. *)
Lemma getBaseURL_without_protocol_example :
  getBaseURL (mkEnv (Some (js "api.example.com")) false true)
             (mkWorld [] [])
  = (js "http://api.example.com", mkWorld [] []).
Proof.
  refine (getBaseURL_without_protocol
            (mkEnv (Some (js "api.example.com")) false true)
            (mkWorld [] []) (js "api.example.com") eq_refl _ eq_refl).
  intros H; discriminate H.
Defined.

(** C8. With no environment string in a production build the resolution
    returns the empty string, and writes one error entry to the console:
    the diagnostic that names the missing setting. It is a value of the
    function like any other: nothing is thrown. *)
Theorem getBaseURL_missing_in_production (env : ImportMetaEnv) (w : World) :
  VITE_API_BASE_URL env = None ->
  PROD env = true ->
  getBaseURL env w =
    ([], mkWorld (console w ++ [mkLog LevelError [JStr missingConfigMessage]])
                 (navigations w))
  /\ JsString.includes (js "VITE_API_BASE_URL is not set in production")
                       missingConfigMessage = true.
Proof.
  intros Henv Hprod. split; [|reflexivity].
  unfold getBaseURL. now rewrite Henv, Hprod.
Qed.

Lemma getBaseURL_missing_in_production_example :
  fst (getBaseURL (mkEnv None true false) (mkWorld [] [])) = []
  /\ List.length (console (snd (getBaseURL (mkEnv None true false)
                                           (mkWorld [] [])))) = 1%nat.
Proof.
  destruct (getBaseURL_missing_in_production
              (mkEnv None true false) (mkWorld [] []) eq_refl eq_refl)
    as [H _].
  rewrite H. split; reflexivity.
Defined.

(** C9. With no environment string outside a production build the
    resolution returns exactly ["http://localhost:4000/api"]; nothing is
    logged. *)
Theorem getBaseURL_development_fallback (env : ImportMetaEnv) (w : World) :
  VITE_API_BASE_URL env = None ->
  PROD env = false ->
  getBaseURL env w = (js "http://localhost:4000/api", w).
Proof.
  intros Henv Hprod. unfold getBaseURL. now rewrite Henv, Hprod.
Qed.

Lemma getBaseURL_development_fallback_example :
  getBaseURL (mkEnv None false true) (mkWorld [] [])
  = (js "http://localhost:4000/api", mkWorld [] []).
Proof.
  exact (getBaseURL_development_fallback
           (mkEnv None false true) (mkWorld [] []) eq_refl eq_refl).
Defined.

(** The empty string is not truthy: [getBaseURL] takes the same path for it
    as for a variable that is not defined. *)
Lemma getBaseURL_empty_like_undefined (prod dev : bool) (w : World) :
  getBaseURL (mkEnv (Some []) prod dev) w = getBaseURL (mkEnv None prod dev) w.
Proof. reflexivity. Qed.

(** C10, as stated, fails: a single space outside a production build does
    not resolve to the bare protocol ["http://"], nor does it in a
    production build resolve to ["https://"]. *)
Lemma whitespace_only_is_not_bare_protocol :
  allWhiteSpace (js " ") = true
  /\ fst (getBaseURL (mkEnv (Some (js " ")) false true) (mkWorld [] []))
     <> js "http://"
  /\ fst (getBaseURL (mkEnv (Some (js " ")) true false) (mkWorld [] []))
     <> js "https://".
Proof.
  split; [reflexivity|].
  split; intros H; vm_compute in H; discriminate H.
Qed.

(** C10, amended. A non-empty environment string made of white space only
    is treated as set, not as missing: the protocol is put before the empty
    trimmed string and the replacement then removes the last slash of the
    protocol itself, which leaves ["https:/"] in a production build and
    ["http:/"] otherwise; the fallbacks for a missing string are not used
    and nothing is logged. *)
Theorem getBaseURL_whitespace_only
    (env : ImportMetaEnv) (w : World) (s : jsstring) :
  VITE_API_BASE_URL env = Some s ->
  s <> [] ->
  allWhiteSpace s = true ->
  getBaseURL env w = ((if PROD env then js "https:/" else js "http:/"), w).
Proof.
  intros Henv Hs Hws.
  rewrite (getBaseURL_set env w s Henv Hs).
  rewrite (JsStringFacts.trim_all s Hws).
  now destruct (PROD env).
Qed.

Lemma getBaseURL_whitespace_only_example :
  getBaseURL (mkEnv (Some (js "   ")) true false) (mkWorld [] [])
  = (js "https:/", mkWorld [] []).
Proof.
  refine (getBaseURL_whitespace_only
            (mkEnv (Some (js "   ")) true false) (mkWorld [] [])
            (js "   ") eq_refl _ eq_refl).
  intros H; discriminate H.
Defined.

(** ** Resolving a resolved value *)

Lemma replaceTrailingSlash_app (p s : jsstring) :
  s <> [] ->
  JsString.replaceTrailingSlash (p ++ s) = p ++ JsString.replaceTrailingSlash s.
Proof.
  intros Hs. induction p as [|c p IH]; [reflexivity|].
  change ((c :: p) ++ s) with (c :: (p ++ s)).
  cbn [JsString.replaceTrailingSlash]. rewrite IH.
  destruct (p ++ s) eqn:E; [|reflexivity].
  apply app_eq_nil in E as [_ E]. contradiction.
Qed.

Lemma trimEnd_app (p s : jsstring) (c : N) :
  JsString.isWhiteSpace c = false ->
  JsString.trimEnd ((p ++ [c]) ++ s) = (p ++ [c]) ++ JsString.trimEnd s.
Proof.
  intros Hc. induction s as [|d s IH] using rev_ind.
  - rewrite app_nil_r. change (JsString.trimEnd []) with (@nil N).
    rewrite app_nil_r, JsStringFacts.trimEnd_snoc. now rewrite Hc.
  - rewrite app_assoc, !JsStringFacts.trimEnd_snoc, IH.
    destruct (JsString.isWhiteSpace d); [reflexivity|].
    now rewrite app_assoc.
Qed.

Lemma hasProtocol_inv (s : jsstring) :
  hasProtocol s = true ->
  exists r, s = js "http://" ++ r \/ s = js "https://" ++ r.
Proof.
  unfold hasProtocol. intros H. apply orb_true_iff in H as [H|H];
    apply JsStringFacts.startsWith_inv in H as [r ->]; exists r; auto.
Qed.

Lemma hasProtocol_app (r : jsstring) :
  hasProtocol (js "http://" ++ r) = true
  /\ hasProtocol (js "https://" ++ r) = true.
Proof.
  unfold hasProtocol. split.
  - now rewrite JsStringFacts.startsWith_app.
  - rewrite (JsStringFacts.startsWith_app (js "https://") r).
    apply orb_true_r.
Qed.

(** Trimming keeps a protocol in place. *)
Lemma hasProtocol_trim (s : jsstring) :
  hasProtocol s = true ->
  JsString.trim s = JsString.trimEnd s /\ hasProtocol (JsString.trimEnd s) = true.
Proof.
  intros H. destruct (hasProtocol_inv s H) as [r [-> | ->]].
  - split; [reflexivity|].
    change (js "http://" ++ r) with ((js "http:/" ++ [JsString.slash]) ++ r).
    rewrite trimEnd_app by reflexivity.
    apply (hasProtocol_app (JsString.trimEnd r)).
  - split; [reflexivity|].
    change (js "https://" ++ r) with ((js "https:/" ++ [JsString.slash]) ++ r).
    rewrite trimEnd_app by reflexivity.
    apply (hasProtocol_app (JsString.trimEnd r)).
Qed.

(** The replacement takes the protocol away only from a bare protocol. *)
Lemma replaceTrailingSlash_protocol (s : jsstring) :
  hasProtocol s = true ->
  hasProtocol (JsString.replaceTrailingSlash s) = false ->
  JsString.replaceTrailingSlash s = js "http:/"
  \/ JsString.replaceTrailingSlash s = js "https:/".
Proof.
  intros H Hr. destruct (hasProtocol_inv s H) as [r [-> | ->]];
    (destruct r as [|c r]; [vm_compute; auto|]);
    rewrite replaceTrailingSlash_app in Hr by discriminate;
    [ rewrite (proj1 (hasProtocol_app _)) in Hr
    | rewrite (proj2 (hasProtocol_app _)) in Hr ];
    discriminate Hr.
Qed.

Lemma endsClean_snoc (s : jsstring) (c : N) :
  endsClean (s ++ [c])
  = negb (c =? JsString.slash) && negb (JsString.isWhiteSpace c).
Proof. unfold endsClean. now rewrite rev_app_distr. Qed.

(** What a second resolution does to a string that has a protocol. *)
Lemma getBaseURL_again (prod dev : bool) (w : World) (r : jsstring) :
  hasProtocol r = true ->
  getBaseURL (mkEnv (Some r) prod dev) w
  = (JsString.replaceTrailingSlash (JsString.trimEnd r), w).
Proof.
  intros H. destruct (hasProtocol_trim r H) as [Ht Hp].
  rewrite (getBaseURL_set (mkEnv (Some r) prod dev) w r eq_refl
             (hasProtocol_nonempty r H)).
  now rewrite Ht, Hp.
Qed.

(** C5, as stated, fails: ["https://api.example.com//"] contains a
    protocol, it resolves to ["https://api.example.com/"], and resolving
    that value yields ["https://api.example.com"], a different string. *)
Lemma getBaseURL_not_idempotent :
  let s := js "https://api.example.com//" in
  let r := fst (getBaseURL (mkEnv (Some s) true false) (mkWorld [] [])) in
  hasProtocol (JsString.trim s) = true
  /\ r = js "https://api.example.com/"
  /\ fst (getBaseURL (mkEnv (Some r) true false) (mkWorld [] []))
     = js "https://api.example.com"
  /\ fst (getBaseURL (mkEnv (Some r) true false) (mkWorld [] [])) <> r.
Proof.
  cbv zeta. repeat split; try reflexivity.
  intros H; vm_compute in H; discriminate H.
Qed.

(** C5, amended. For an environment string that contains a protocol,
    resolving the resolved value yields the same string exactly when the
    resolved value still begins with a protocol and ends neither in a
    slash nor in white space; in particular a string whose trimmed form
    ends in two slashes, or in white space before a final slash, is
    resolved to something shorter the second time. *)
Theorem getBaseURL_idempotent_iff
    (env : ImportMetaEnv) (w w' : World) (s : jsstring) :
  VITE_API_BASE_URL env = Some s ->
  hasProtocol (JsString.trim s) = true ->
  let r := fst (getBaseURL env w) in
  fst (getBaseURL (mkEnv (Some r) (PROD env) (DEV env)) w') = r
  <-> hasProtocol r = true /\ endsClean r = true.
Proof.
  intros Henv Hp r.
  assert (Hr : r = JsString.replaceTrailingSlash (JsString.trim s)).
  { subst r.
    rewrite (getBaseURL_set env w s Henv (trimmed_protocol_nonempty s Hp)).
    now rewrite Hp. }
  clearbody r. split.
  - intros Hfix. destruct (hasProtocol r) eqn:Hpr.
    + split; [reflexivity|].
      rewrite (getBaseURL_again _ _ w' r Hpr) in Hfix. simpl in Hfix.
      destruct r as [|c r0] using rev_ind;
        [discriminate Hpr|]. clear IHr0.
      rewrite endsClean_snoc.
      rewrite JsStringFacts.trimEnd_snoc in Hfix.
      destruct (JsString.isWhiteSpace c) eqn:Hc.
      * exfalso. apply (f_equal (@List.length N)) in Hfix.
        pose proof (JsStringFacts.replaceTrailingSlash_length
                      (JsString.trimEnd r0)).
        pose proof (JsStringFacts.trimEnd_length r0).
        rewrite length_app in Hfix. simpl in Hfix. lia.
      * rewrite JsStringFacts.replaceTrailingSlash_snoc in Hfix.
        destruct (c =? JsString.slash); [|reflexivity].
        exfalso. apply (f_equal (@List.length N)) in Hfix.
        rewrite length_app in Hfix. simpl in Hfix. lia.
    + exfalso. rewrite Hr in Hpr.
      destruct (replaceTrailingSlash_protocol _ Hp Hpr) as [E|E];
        rewrite <- Hr in E; clear Hr Hpr; subst r;
        destruct (PROD env); vm_compute in Hfix; discriminate Hfix.
  - intros [Hpr Hclean].
    rewrite (getBaseURL_again _ _ w' r Hpr). simpl.
    destruct r as [|c r0] using rev_ind; [discriminate Hpr|]. clear IHr0.
    rewrite endsClean_snoc in Hclean.
    apply andb_true_iff in Hclean as [Hslash Hws].
    apply negb_true_iff in Hslash, Hws.
    rewrite JsStringFacts.trimEnd_snoc, Hws.
    now rewrite JsStringFacts.replaceTrailingSlash_snoc, Hslash.
Qed.

Lemma getBaseURL_idempotent_example :
  fst (getBaseURL (mkEnv (Some (js "https://api.example.com")) true false)
                  (mkWorld [] []))
  = js "https://api.example.com".
Proof.
  exact (proj2 (getBaseURL_idempotent_iff
                  (mkEnv (Some (js "https://api.example.com/")) true false)
                  (mkWorld [] []) (mkWorld [] [])
                  (js "https://api.example.com/") eq_refl eq_refl)
               (conj eq_refl eq_refl)).
Defined.

(** * The response interceptor *)

(** ** Objects *)

Lemma lookup_define_same (k : jsstring) (v : JsValue) (ps : Props) :
  lookup k (define k v ps) = Some v.
Proof.
  induction ps as [|[k' v'] ps IH]; simpl.
  - now rewrite JsStringFacts.eqb_refl.
  - destruct (JsString.eqb k' k) eqn:E; simpl; now rewrite E.
Qed.

Lemma lookup_define_other (k k' : jsstring) (v : JsValue) (ps : Props) :
  k <> k' -> lookup k (define k' v ps) = lookup k ps.
Proof.
  intros Hne. induction ps as [|[k0 v0] ps IH]; simpl.
  - destruct (JsString.eqb k' k) eqn:E; [|reflexivity].
    apply JsStringFacts.eqb_eq in E. congruence.
  - destruct (JsString.eqb k0 k') eqn:E; simpl.
    + apply JsStringFacts.eqb_eq in E. subst k0.
      destruct (JsString.eqb k' k) eqn:E'; [|reflexivity].
      apply JsStringFacts.eqb_eq in E'. congruence.
    + now rewrite IH.
Qed.

Lemma getField_define_same (k : jsstring) (v : JsValue) (ps : Props) :
  getField (JObj (define k v ps)) k = v.
Proof. simpl. now rewrite lookup_define_same. Qed.

Lemma getFieldOpt_body (error : ErrorObject) :
  bodyErrorCode error
  = match bodyErrorCodeField error with Some v => v | None => JUndefined end.
Proof.
  unfold bodyErrorCode, bodyErrorCodeField.
  now destruct (bodyOf error).
Qed.

Lemma or_else_truthy (a b : JsValue) :
  truthy b = true -> truthy (or_else a b) = true.
Proof. intros Hb. unfold or_else. now destruct (truthy a) eqn:E. Qed.

Lemma truthy_string (v : JsValue) :
  isString v = true -> truthy v = true -> isNonEmptyString v = true.
Proof. destruct v as [| | | |[|c s]| |]; simpl; congruence. Qed.

(** ** Strict equality with the literals of the handler *)

Lemma strictEqStr_eq (v : JsValue) (s : jsstring) :
  strictEqStr v s = true <-> v = JStr s.
Proof.
  destruct v; simpl; try (split; [discriminate | intros H; discriminate H]).
  rewrite JsStringFacts.eqb_eq. split; congruence.
Qed.

Lemma strictEqNum_401 (v : JsValue) :
  strictEqNum v num401 = true <-> v = JNum num401.
Proof.
  split; [|intros ->; vm_compute; reflexivity].
  destruct v as [| | |x| | |]; cbn [strictEqNum]; try discriminate.
  unfold SFeqb, SFcompare, num401.
  destruct x as [b|b| |b m e]; try discriminate.
  - destruct b; discriminate.
  - destruct b; try discriminate.
    destruct (Z.compare e (-44)) eqn:Ee; try discriminate.
    apply Z.compare_eq in Ee. subst e.
    destruct (Pos.compare_cont Eq m 7054466603810816) eqn:Em;
      try discriminate.
    apply Pos.compare_eq in Em. now subst m.
Qed.

Lemma unauthorized401_reflect (error : ErrorObject) :
  strictEqStr (bodyOf error) (js "Unauthorized")
    && strictEqNum (statusOf error) num401 = true
  <-> Unauthorized401 error.
Proof.
  unfold Unauthorized401.
  now rewrite andb_true_iff, strictEqStr_eq, strictEqNum_401.
Qed.

(** ** The two branches *)

Lemma onRejected_without_response (error : ErrorObject) (w : World) :
  truthy (responseOf error) = false ->
  onRejected error w =
    (Rejected
       (JObj (define (js "errorCode") (JStr (js "NETWORK_ERROR"))
             (define (js "message")
                (or_else (readProp error (js "message"))
                         (JStr networkFallbackMessage))
             (own error)))),
     mkWorld (console w ++
                [mkLog LevelError [JStr (js "Network error:");
                                   readProp error (js "message")]])
             (navigations w)).
Proof.
  unfold responseOf, onRejected. intros H. now rewrite H.
Qed.

Lemma onRejected_with_response (error : ErrorObject) (w : World) :
  truthy (responseOf error) = true ->
  onRejected error w =
    (Rejected
       (JObj (define (js "errorCode")
                (or_else (bodyErrorCode error) (JStr (js "UNKNOWN_ERROR")))
             (own error))),
     mkWorld (console w)
             (navigations w ++
                if strictEqStr (bodyOf error) (js "Unauthorized")
                   && strictEqNum (statusOf error) num401
                then [js "/"] else [])).
Proof.
  unfold responseOf, onRejected, bodyErrorCode, bodyOf, statusOf, responseOf.
  intros H. rewrite H. cbn [negb].
  destruct (strictEqStr _ _ && strictEqNum _ _); unfold bind; simpl.
  - reflexivity.
  - rewrite app_nil_r. now destruct w.
Qed.

(** ** Every failure is rejected with an error code *)

(** C1, as stated, fails: a response whose body is [{ errorCode: 42 }] is
    rejected with the number [42] as [errorCode], which is not a string. *)
Lemma onRejected_errorCode_not_a_string :
  let error :=
    failureWithResponse (JObj [(js "errorCode", JNum num42)]) (JNum num400) in
  errorCodeOf (fst (onRejected error (mkWorld [] []))) = Some (JNum num42)
  /\ isNonEmptyString (JNum num42) = false.
Proof. split; reflexivity. Qed.

(** A failure that properties can be read from is rejected, never
    fulfilled, with an error whose [errorCode] is a truthy value: a
    non-empty string, or the value that is no string which the response
    body supplied. *)
Lemma onRejected_truthy_errorCode (error : ErrorObject) (w : World) :
  exists (e : JsValue) (w' : World),
    onRejected error w = (Rejected e, w')
    /\ truthy (getField e (js "errorCode")) = true
    /\ (isNonEmptyString (getField e (js "errorCode")) = true
        \/ (truthy (responseOf error) = true
            /\ isString (bodyErrorCode error) = false
            /\ getField e (js "errorCode") = bodyErrorCode error)).
Proof.
  destruct (truthy (responseOf error)) eqn:Hresp.
  - rewrite (onRejected_with_response error w Hresp).
    do 2 eexists. split; [reflexivity|].
    rewrite getField_define_same. split.
    + now apply or_else_truthy.
    + unfold or_else.
      destruct (truthy (bodyErrorCode error)) eqn:Ht; [|now left].
      destruct (isString (bodyErrorCode error)) eqn:Hs.
      * left. now apply truthy_string.
      * right. auto.
  - rewrite (onRejected_without_response error w Hresp).
    do 2 eexists. split; [reflexivity|].
    rewrite getField_define_same. split; [reflexivity | now left].
Qed.

Lemma readable_none (reason : Reason) :
  readable reason = None
  <-> reason = ReasonValue JNull \/ reason = ReasonValue JUndefined.
Proof.
  split.
  - destruct reason as [error | []]; simpl; intros H;
      try discriminate H; auto.
  - now intros [-> | ->].
Qed.

(** C1, amended. Every failure handed to the rejection handler is
    rejected, never fulfilled and never swallowed. A failure other than
    [null] and [undefined], with or without a response, is rejected with
    an error whose [errorCode] is a truthy value, so never missing and
    never empty: it is a non-empty string, except when a response was
    received whose body supplies an [errorCode] that is no string, which
    is passed on as it is. The failures [null] and [undefined] make the
    handler throw while it reads [error.response], before any effect: its
    promise is rejected with that [TypeError], which has no [errorCode]. *)
Theorem handleRejection_rejects_with_errorCode (reason : Reason) (w : World) :
  (exists (error : ErrorObject) (e : JsValue) (w' : World),
      readable reason = Some error
      /\ reason <> ReasonValue JNull
      /\ reason <> ReasonValue JUndefined
      /\ handleRejection reason w = (Settles (Rejected e), w')
      /\ truthy (getField e (js "errorCode")) = true
      /\ (isNonEmptyString (getField e (js "errorCode")) = true
          \/ (truthy (responseOf error) = true
              /\ isString (bodyErrorCode error) = false
              /\ getField e (js "errorCode") = bodyErrorCode error)))
  \/ ((reason = ReasonValue JNull \/ reason = ReasonValue JUndefined)
      /\ handleRejection reason w = (RejectedWithTypeError, w)
      /\ rejectionErrorCode RejectedWithTypeError = JUndefined).
Proof.
  unfold handleRejection.
  destruct (readable reason) as [error|] eqn:Hread.
  - left.
    destruct (onRejected_truthy_errorCode error w)
      as (e & w' & Hrun & Htruthy & Hkind).
    exists error, e, w'. split; [reflexivity|].
    split; [intros ->; discriminate Hread|].
    split; [intros ->; discriminate Hread|].
    split; [|split; assumption].
    unfold bind. now rewrite Hrun.
  - right. apply readable_none in Hread. now repeat split.
Qed.

(** A failure that is a text, as a [throw "text"] in a request
    interceptor would hand over, has no response: its code units are
    spread under their indices and the error code is ["NETWORK_ERROR"]. *)
Example handleRejection_text :
  fst (handleRejection (ReasonValue (JStr (js "no"))) (mkWorld [] []))
  = Settles (Rejected (JObj
      [(js "0", JStr (js "n")); (js "1", JStr (js "o"));
       (js "message", JStr networkFallbackMessage);
       (js "errorCode", JStr (js "NETWORK_ERROR"))])).
Proof. reflexivity. Qed.

(** ** The error code of a failure with a response *)

(** C2, as stated, fails: in the body [{ errorCode: "" }] the field is
    present, yet the rejected error carries ["UNKNOWN_ERROR"], not the
    field's value. *)
Lemma onRejected_empty_errorCode_replaced :
  let error :=
    failureWithResponse (JObj [(js "errorCode", JStr [])]) (JNum num400) in
  truthy (responseOf error) = true
  /\ bodyErrorCodeField error = Some (JStr [])
  /\ errorCodeOf (fst (onRejected error (mkWorld [] [])))
     = Some (JStr (js "UNKNOWN_ERROR"))
  /\ errorCodeOf (fst (onRejected error (mkWorld [] []))) <> Some (JStr []).
Proof.
  cbv zeta. repeat split; try reflexivity.
  intros H; vm_compute in H; discriminate H.
Qed.

(** C2, amended. For a failure that carries a response, the [errorCode] of
    the rejected error is the body's [errorCode] field when that field is
    present and truthy (for a text: not empty), and the literal
    ["UNKNOWN_ERROR"] otherwise: when the body has no such field, is no
    object, or holds an empty, null, zero or false [errorCode]. *)
Theorem onRejected_errorCode_from_body (error : ErrorObject) (w : World) :
  truthy (responseOf error) = true ->
  errorCodeOf (fst (onRejected error w))
  = Some match bodyErrorCodeField error with
         | Some v => if truthy v then v else JStr (js "UNKNOWN_ERROR")
         | None => JStr (js "UNKNOWN_ERROR")
         end.
Proof.
  intros Hresp. rewrite (onRejected_with_response error w Hresp).
  cbn [fst errorCodeOf]. rewrite getField_define_same, getFieldOpt_body.
  now destruct (bodyErrorCodeField error).
Qed.

(** The two examples of the specification: the body
    [{ errorCode: "VALIDATION_FAILED" }] yields ["VALIDATION_FAILED"], a
    body without the field yields ["UNKNOWN_ERROR"]. *)
Lemma onRejected_errorCode_from_body_example :
  errorCodeOf
    (fst (onRejected
            (failureWithResponse
               (JObj [(js "errorCode", JStr (js "VALIDATION_FAILED"))])
               (JNum num400))
            (mkWorld [] [])))
  = Some (JStr (js "VALIDATION_FAILED"))
  /\ errorCodeOf
       (fst (onRejected
               (failureWithResponse
                  (JObj [(js "detail", JStr (js "bad input"))]) (JNum num400))
               (mkWorld [] [])))
     = Some (JStr (js "UNKNOWN_ERROR")).
Proof.
  split.
  - exact (onRejected_errorCode_from_body
             (failureWithResponse
                (JObj [(js "errorCode", JStr (js "VALIDATION_FAILED"))])
                (JNum num400))
             (mkWorld [] []) eq_refl).
  - exact (onRejected_errorCode_from_body
             (failureWithResponse
                (JObj [(js "detail", JStr (js "bad input"))]) (JNum num400))
             (mkWorld [] []) eq_refl).
Defined.

(** ** Failures without a response *)

(** C3. A failure without a response (the [response] property is missing,
    or holds any other falsy value) is rejected with an error whose
    [errorCode] is exactly ["NETWORK_ERROR"]; the handler writes one error
    entry to the console, made of the label and the failure's message, and
    navigates nowhere; the [message] of the rejected error is the failure's
    message when it has one (a truthy value: for a text, a non-empty one)
    and the fixed fallback text otherwise. *)
Theorem onRejected_network_error (error : ErrorObject) (w : World) :
  truthy (responseOf error) = false ->
  exists e : JsValue,
    onRejected error w =
      (Rejected e,
       mkWorld (console w ++
                  [mkLog LevelError [JStr (js "Network error:");
                                     readProp error (js "message")]])
               (navigations w))
    /\ getField e (js "errorCode") = JStr (js "NETWORK_ERROR")
    /\ getField e (js "message") =
         (if truthy (readProp error (js "message"))
          then readProp error (js "message")
          else JStr (js "Network error. Please check your API configuration.")).
Proof.
  intros Hresp. rewrite (onRejected_without_response error w Hresp).
  eexists. split; [reflexivity|]. split.
  - apply getField_define_same.
  - cbn [getField].
    rewrite lookup_define_other by (intros H; discriminate H).
    now rewrite lookup_define_same.
Qed.

Lemma onRejected_network_error_example :
  exists e : JsValue,
    onRejected (failureWithoutResponse (JStr (js "timeout of 10000ms exceeded")))
               (mkWorld [] [])
    = (Rejected e,
       mkWorld [mkLog LevelError [JStr (js "Network error:");
                                  JStr (js "timeout of 10000ms exceeded")]]
               [])
    /\ getField e (js "errorCode") = JStr (js "NETWORK_ERROR")
    /\ getField e (js "message") = JStr (js "timeout of 10000ms exceeded").
Proof.
  exact (onRejected_network_error
           (failureWithoutResponse (JStr (js "timeout of 10000ms exceeded")))
           (mkWorld [] []) eq_refl).
Defined.

(** A failure without a response whose message is empty gets the fallback
    text. *)
Example onRejected_network_error_fallback :
  messageOf (fst (onRejected (failureWithoutResponse (JStr []))
                             (mkWorld [] [])))
  = Some (JStr networkFallbackMessage).
Proof. reflexivity. Qed.

(** ** The forced redirection *)

(** C4. A failure with a response is rejected with an error that carries an
    [errorCode], the body's or ["UNKNOWN_ERROR"], and the console is left
    alone. When the status is exactly 401 and the body is literally the
    text [Unauthorized], the handler first assigns ["/"] to
    [window.location.href], and the error code is then ["UNKNOWN_ERROR"],
    a text having no [errorCode] field; for every other response no
    navigation occurs. *)
Theorem onRejected_unauthorized_redirect (error : ErrorObject) (w : World) :
  truthy (responseOf error) = true ->
  exists (e : JsValue) (w' : World),
    onRejected error w = (Rejected e, w')
    /\ console w' = console w
    /\ getField e (js "errorCode")
       = or_else (bodyErrorCode error) (JStr (js "UNKNOWN_ERROR"))
    /\ truthy (getField e (js "errorCode")) = true
    /\ ((Unauthorized401 error
         /\ navigations w' = navigations w ++ [js "/"]
         /\ getField e (js "errorCode") = JStr (js "UNKNOWN_ERROR"))
        \/ (~ Unauthorized401 error /\ navigations w' = navigations w)).
Proof.
  intros Hresp. rewrite (onRejected_with_response error w Hresp).
  do 2 eexists. split; [reflexivity|]. cbn [console navigations].
  rewrite getField_define_same.
  split; [reflexivity|]. split; [reflexivity|].
  split; [now apply or_else_truthy|].
  destruct (strictEqStr (bodyOf error) (js "Unauthorized")
            && strictEqNum (statusOf error) num401) eqn:Hc.
  - left. apply unauthorized401_reflect in Hc.
    split; [exact Hc|]. split; [reflexivity|].
    destruct Hc as [Hbody _]. unfold bodyErrorCode. now rewrite Hbody.
  - right. split; [|apply app_nil_r].
    intros HU. apply unauthorized401_reflect in HU. congruence.
Qed.

Lemma onRejected_unauthorized_redirect_example :
  exists (e : JsValue) (w' : World),
    onRejected (failureWithResponse (JStr (js "Unauthorized")) (JNum num401))
               (mkWorld [] [])
    = (Rejected e, w')
    /\ navigations w' = [js "/"]
    /\ getField e (js "errorCode") = JStr (js "UNKNOWN_ERROR").
Proof.
  destruct (onRejected_unauthorized_redirect
              (failureWithResponse (JStr (js "Unauthorized")) (JNum num401))
              (mkWorld [] []) eq_refl)
    as (e & w' & Hrun & _ & _ & _ & [(_ & Hnav & Hcode) | (Hno & _)]).
  - exists e, w'. auto.
  - exfalso. apply Hno. split; reflexivity.
Defined.

(** The same body with another status, and the same status with another
    body, do not navigate. *)
Example onRejected_no_redirect :
  navigations
    (snd (onRejected
            (failureWithResponse (JStr (js "Unauthorized")) (JNum num400))
            (mkWorld [] []))) = []
  /\ navigations
       (snd (onRejected
               (failureWithResponse (JObj [(js "errorCode", JStr (js "EXPIRED"))])
                                    (JNum num401))
               (mkWorld [] []))) = [].
Proof. split; reflexivity. Qed.

(** * Further properties of the base-URL resolution *)

Lemma envSet_inv (e : option jsstring) (s : jsstring) :
  envSet e = Some s -> e = Some s /\ s <> [].
Proof.
  destruct e as [[|c r]|]; simpl; intros H; try discriminate H.
  injection H as <-. split; [reflexivity | discriminate].
Qed.

Lemma replaceTrailingSlash_keeps_most (s : jsstring) :
  (List.length s <= S (List.length (JsString.replaceTrailingSlash s)))%nat.
Proof.
  destruct s as [|c s _] using rev_ind; [simpl; lia|].
  rewrite JsStringFacts.replaceTrailingSlash_snoc.
  destruct (c =? JsString.slash); rewrite ?length_app; simpl; lia.
Qed.

Lemma hasProtocol_length (s : jsstring) :
  hasProtocol s = true -> (7 <= List.length s)%nat.
Proof.
  intros H. destruct (hasProtocol_inv s H) as [r [-> | ->]];
    rewrite length_app; simpl; lia.
Qed.

(** A string that is set never resolves to the empty string and leaves the
    world as it is. *)
Lemma getBaseURL_set_nonempty (env : ImportMetaEnv) (w : World) (s : jsstring) :
  VITE_API_BASE_URL env = Some s ->
  s <> [] ->
  fst (getBaseURL env w) <> [] /\ snd (getBaseURL env w) = w.
Proof.
  intros Henv Hs. rewrite (getBaseURL_set env w s Henv Hs).
  split; [|reflexivity]. cbn [fst]. intros H.
  apply (f_equal (@List.length N)) in H. simpl in H.
  match type of H with
  | List.length (JsString.replaceTrailingSlash ?u) = _ =>
      pose proof (replaceTrailingSlash_keeps_most u) as Hu;
      assert (7 <= List.length u)%nat as Hlen
  end.
  { destruct (hasProtocol (JsString.trim s)) eqn:Hp.
    - now apply hasProtocol_length.
    - rewrite length_app. destruct (PROD env); simpl; lia. }
  lia.
Qed.

(** The result and the world after [getBaseURL], by the two things that
    decide them. *)
Lemma getBaseURL_outcome (env : ImportMetaEnv) (w : World) :
  (fst (getBaseURL env w) = [] <-> envMissing env && PROD env = true)
  /\ snd (getBaseURL env w) =
       mkWorld (console w ++
                  if envMissing env && PROD env then [missingConfigEntry]
                  else [])
               (navigations w).
Proof.
  unfold envMissing.
  destruct (envSet (VITE_API_BASE_URL env)) as [s|] eqn:Hset.
  - apply envSet_inv in Hset as [Henv Hs].
    destruct (getBaseURL_set_nonempty env w s Henv Hs) as [Hne Hw].
    cbn [andb]. rewrite Hw, app_nil_r. split.
    + split; [contradiction | discriminate].
    + now destruct w.
  - unfold getBaseURL. rewrite Hset. cbn [andb].
    destruct (PROD env); cbn.
    + split; [split; reflexivity | reflexivity].
    + rewrite app_nil_r. split; [split; discriminate | now destruct w].
Qed.

(** X1. The resolved base URL is the empty string exactly when the
    environment string is undefined or empty and the build is a production
    build; every set string, and every development build, resolves to a
    non-empty URL. *)
Theorem getBaseURL_empty_iff (env : ImportMetaEnv) (w : World) :
  fst (getBaseURL env w) = []
  <-> envMissing env = true /\ PROD env = true.
Proof.
  rewrite <- andb_true_iff. apply (getBaseURL_outcome env w).
Qed.

(** X2. [getBaseURL] never navigates, and it writes to the console exactly
    when it returns the empty string: then, and only then, the single
    error entry about the missing setting is added. *)
Theorem getBaseURL_logs_iff_empty (env : ImportMetaEnv) (w : World) :
  snd (getBaseURL env w) =
    mkWorld (console w ++
               if JsString.eqb (fst (getBaseURL env w)) []
               then [missingConfigEntry] else [])
            (navigations w).
Proof.
  destruct (getBaseURL_outcome env w) as [Hempty Hw].
  rewrite Hw at 1. f_equal. f_equal.
  destruct (envMissing env && PROD env) eqn:Hm.
  - rewrite (proj2 Hempty eq_refl). reflexivity.
  - destruct (JsString.eqb (fst (getBaseURL env w)) []) eqn:Hr;
      [|reflexivity].
    apply JsStringFacts.eqb_eq in Hr. apply Hempty in Hr. discriminate Hr.
Qed.

Lemma replaceTrailingSlash_keeps_protocol (p r : jsstring) :
  hasProtocol (p ++ JsString.replaceTrailingSlash r) = true ->
  r <> [] ->
  hasProtocol (JsString.replaceTrailingSlash (p ++ r)) = true.
Proof. intros H Hr. now rewrite replaceTrailingSlash_app. Qed.

Ltac protocol_prefix :=
  first [ apply (proj1 (hasProtocol_app _))
        | apply (proj2 (hasProtocol_app _)) ].

Lemma getBaseURL_absolute_when
    (env : ImportMetaEnv) (w : World) (s : jsstring) :
  VITE_API_BASE_URL env = Some s ->
  s <> [] ->
  hasProtocol (fst (getBaseURL env w)) = true
  <-> JsString.trim s <> []
      /\ JsString.trim s <> js "http://"
      /\ JsString.trim s <> js "https://".
Proof.
  intros Henv Hs. rewrite (getBaseURL_set env w s Henv Hs). cbn [fst].
  destruct (hasProtocol (JsString.trim s)) eqn:Hp.
  - destruct (hasProtocol_inv _ Hp) as [r [E | E]]; rewrite E;
      destruct r as [|c r].
    + split; [intros H; vm_compute in H; discriminate H|].
      intros (_ & H & _). now contradiction H.
    + split.
      * intros _. repeat split; intros H; cbn in H; discriminate H.
      * intros _. apply replaceTrailingSlash_keeps_protocol;
          [protocol_prefix | discriminate].
    + split; [intros H; vm_compute in H; discriminate H|].
      intros (_ & _ & H). now contradiction H.
    + split.
      * intros _. repeat split; intros H; cbn in H; discriminate H.
      * intros _. apply replaceTrailingSlash_keeps_protocol;
          [protocol_prefix | discriminate].
  - destruct (JsString.trim s) as [|c r] eqn:Et.
    + split; [|intros (H & _); now contradiction H].
      destruct (PROD env); intros H; vm_compute in H; discriminate H.
    + split.
      * intros _. repeat split; try discriminate;
          intros H; rewrite H in Hp; discriminate Hp.
      * intros _. destruct (PROD env);
          apply replaceTrailingSlash_keeps_protocol;
          solve [protocol_prefix | discriminate].
Qed.

(** X3. A set environment string resolves to a URL that begins with
    [http://] or [https://] exactly when its trimmed form is neither empty
    nor a bare protocol. In those three cases the trailing-slash removal
    takes the last slash of the protocol: an empty trimmed form resolves to
    ["https:/"] in a production build and to ["http:/"] otherwise, the
    trimmed form ["http://"] resolves to ["http:/"] and the trimmed form
    ["https://"] to ["https:/"]. *)
Theorem getBaseURL_absolute_iff
    (env : ImportMetaEnv) (w : World) (s : jsstring) :
  VITE_API_BASE_URL env = Some s ->
  s <> [] ->
  (hasProtocol (fst (getBaseURL env w)) = true
   <-> JsString.trim s <> []
       /\ JsString.trim s <> js "http://"
       /\ JsString.trim s <> js "https://")
  /\ (JsString.trim s = [] ->
      fst (getBaseURL env w) = if PROD env then js "https:/" else js "http:/")
  /\ (JsString.trim s = js "http://" ->
      fst (getBaseURL env w) = js "http:/")
  /\ (JsString.trim s = js "https://" ->
      fst (getBaseURL env w) = js "https:/").
Proof.
  intros Henv Hs. split; [now apply getBaseURL_absolute_when|].
  rewrite (getBaseURL_set env w s Henv Hs). cbn [fst].
  repeat split; intros E; rewrite E.
  - now destruct (PROD env).
  - reflexivity.
  - reflexivity.
Qed.

Lemma getBaseURL_absolute_example :
  hasProtocol
    (fst (getBaseURL (mkEnv (Some (js " api.example.com/v1/ ")) true false)
                     (mkWorld [] []))) = true
  /\ fst (getBaseURL (mkEnv (Some (js " http:// ")) true false)
                     (mkWorld [] [])) = js "http:/".
Proof.
  split.
  - refine (proj2 (proj1 (getBaseURL_absolute_iff
                     (mkEnv (Some (js " api.example.com/v1/ ")) true false)
                     (mkWorld [] []) (js " api.example.com/v1/ ")
                     eq_refl _)) _).
    + intros H; discriminate H.
    + repeat split; intros H; vm_compute in H; discriminate H.
  - refine (proj1 (proj2 (proj2 (getBaseURL_absolute_iff
                     (mkEnv (Some (js " http:// ")) true false)
                     (mkWorld [] []) (js " http:// ") eq_refl _))) eq_refl).
    intros H; discriminate H.
Defined.

(** ** White space around the environment string *)

Lemma trimStart_padding (pre s : jsstring) :
  allWhiteSpace pre = true ->
  JsString.trimStart (pre ++ s) = JsString.trimStart s.
Proof.
  induction pre as [|c pre IH]; [reflexivity|]. simpl.
  intros H. apply andb_true_iff in H as [Hc Hpre]. now rewrite Hc, IH.
Qed.

Lemma trimEnd_padding (s post : jsstring) :
  allWhiteSpace post = true ->
  JsString.trimEnd (s ++ post) = JsString.trimEnd s.
Proof.
  induction post as [|c post IH] using rev_ind.
  - now rewrite app_nil_r.
  - unfold allWhiteSpace. rewrite forallb_app. simpl.
    intros H. apply andb_true_iff in H as [Hpost Hc].
    apply andb_true_iff in Hc as [Hc _].
    rewrite app_assoc, JsStringFacts.trimEnd_snoc, Hc. now apply IH.
Qed.

Lemma trim_padding (pre s post : jsstring) :
  allWhiteSpace pre = true ->
  allWhiteSpace post = true ->
  JsString.trim (pre ++ s ++ post) = JsString.trim s.
Proof.
  intros Hpre Hpost. unfold JsString.trim.
  rewrite (trimStart_padding pre _ Hpre).
  induction s as [|c s IH]; cbn [app JsString.trimStart].
  - now rewrite (JsStringFacts.trimStart_all post Hpost).
  - destruct (JsString.isWhiteSpace c); [exact IH|].
    change (c :: s ++ post) with ((c :: s) ++ post).
    now rewrite (trimEnd_padding (c :: s) post Hpost).
Qed.

(** X4. White space before and after a non-empty environment string
    changes nothing: the padded string resolves to the same URL as the
    string itself, with the same effects. *)
Theorem getBaseURL_ignores_padding
    (prod dev : bool) (w : World) (pre s post : jsstring) :
  s <> [] ->
  allWhiteSpace pre = true ->
  allWhiteSpace post = true ->
  getBaseURL (mkEnv (Some (pre ++ s ++ post)) prod dev) w
  = getBaseURL (mkEnv (Some s) prod dev) w.
Proof.
  intros Hs Hpre Hpost.
  assert (Hpad : pre ++ s ++ post <> []).
  { intros H. apply app_eq_nil in H as [_ H].
    apply app_eq_nil in H as [H _]. contradiction. }
  rewrite (getBaseURL_set (mkEnv (Some (pre ++ s ++ post)) prod dev) w
             _ eq_refl Hpad).
  rewrite (getBaseURL_set (mkEnv (Some s) prod dev) w s eq_refl Hs).
  now rewrite (trim_padding pre s post Hpre Hpost).
Qed.

Lemma getBaseURL_ignores_padding_example :
  getBaseURL (mkEnv (Some (js "  " ++ js "api.example.com" ++ [9; 10]))
                    false true) (mkWorld [] [])
  = getBaseURL (mkEnv (Some (js "api.example.com")) false true)
               (mkWorld [] []).
Proof.
  refine (getBaseURL_ignores_padding false true (mkWorld [] [])
            (js "  ") (js "api.example.com") [9; 10] _ eq_refl eq_refl).
  intros H; discriminate H.
Defined.

(** * The module's initialisation *)

Lemma or_else_string (s : jsstring) (v : JsValue) :
  or_else (JStr s) v = if JsString.eqb s [] then v else JStr s.
Proof. unfold or_else. simpl. now destruct (JsString.eqb s []). Qed.

Lemma initModule_run (env : ImportMetaEnv) (w : World) :
  initModule env w =
    (mkOptions (or_else (JStr (fst (getBaseURL env w))) JUndefined) true 10000,
     mkWorld
       (console (snd (getBaseURL env w)) ++
          if DEV env
          then [mkLog LevelLog
                  [JStr baseURLLabel;
                   or_else (JStr (fst (getBaseURL env w)))
                           (JStr (js "(relative URLs)"))]]
          else [])
       (navigations (snd (getBaseURL env w)))).
Proof.
  unfold initModule, bind.
  destruct (getBaseURL env w) as [url w1]. cbn [fst snd].
  destruct (DEV env); cbn.
  - reflexivity.
  - rewrite app_nil_r. now destruct w1.
Qed.

Lemma getBaseURL_empty_eqb (env : ImportMetaEnv) (w : World) :
  JsString.eqb (fst (getBaseURL env w)) [] = envMissing env && PROD env.
Proof.
  destruct (getBaseURL_outcome env w) as [Hempty _].
  destruct (envMissing env && PROD env).
  - now rewrite (proj2 Hempty eq_refl).
  - destruct (JsString.eqb (fst (getBaseURL env w)) []) eqn:Hr;
      [|reflexivity].
    apply JsStringFacts.eqb_eq in Hr. now apply Hempty in Hr.
Qed.

(** X5. The options handed to [axios.create] always ask for credentials
    and a timeout of 10000 ms; their [baseURL] is [undefined] exactly when
    the setting is missing in a production build and is the resolved URL
    otherwise, so it is never the empty string. *)
Theorem initModule_options (env : ImportMetaEnv) (w : World) :
  fst (initModule env w) =
    mkOptions (if envMissing env && PROD env then JUndefined
               else JStr (fst (getBaseURL env w)))
              true 10000
  /\ baseURL (fst (initModule env w)) <> JStr [].
Proof.
  rewrite initModule_run. cbn [fst baseURL].
  rewrite or_else_string, getBaseURL_empty_eqb.
  destruct (envMissing env && PROD env) eqn:Hm.
  - split; [reflexivity | discriminate].
  - split; [reflexivity|]. intros H. injection H as H.
    apply (proj1 (getBaseURL_outcome env w)) in H. congruence.
Qed.

(** X6. Loading the module never navigates and writes at most two console
    entries, in this order: the error about the missing setting, when it
    is missing in a production build, and, when [DEV] is set, one log
    entry showing the resolved URL, or the placeholder
    ["(relative URLs)"] when there is none. Without [DEV] and with the
    setting present nothing is written. *)
Theorem initModule_console (env : ImportMetaEnv) (w : World) :
  snd (initModule env w) =
    mkWorld
      (console w
         ++ (if envMissing env && PROD env then [missingConfigEntry] else [])
         ++ (if DEV env
             then [baseURLEntry
                     (if envMissing env && PROD env
                      then js "(relative URLs)"
                      else fst (getBaseURL env w))]
             else []))
      (navigations w).
Proof.
  rewrite initModule_run. cbn [snd].
  rewrite or_else_string, getBaseURL_empty_eqb.
  rewrite (proj2 (getBaseURL_outcome env w)). cbn [console navigations].
  rewrite <- app_assoc. unfold baseURLEntry.
  now destruct (envMissing env && PROD env).
Qed.

(** * Further properties of the interceptor *)

Lemma onRejected_is_rejected (error : ErrorObject) (w : World) :
  exists e : JsValue, fst (onRejected error w) = Rejected e.
Proof.
  destruct (truthy (responseOf error)) eqn:Hresp.
  - rewrite (onRejected_with_response error w Hresp). now eexists.
  - rewrite (onRejected_without_response error w Hresp). now eexists.
Qed.

(** X7. The pair of handlers fulfils with a response exactly when the
    transport fulfilled with that very response: a success passes through
    unchanged, without any console entry or navigation, and no failure is
    ever turned into a success. *)
Theorem interceptResponse_fulfilled_iff
    (o : TransportOutcome) (w : World) (response : JsValue) :
  (fst (interceptResponse o w) = Fulfilled response
   <-> o = TransportFulfilled response)
  /\ interceptResponse (TransportFulfilled response) w
     = (Fulfilled response, w).
Proof.
  split; [|reflexivity].
  destruct o as [r | error]; cbn [interceptResponse].
  - unfold onFulfilled, ret. cbn [fst]. split; congruence.
  - destruct (onRejected_is_rejected error w) as [e He]. rewrite He.
    split; discriminate.
Qed.

(** X8. With a response, the own properties of the rejected error are,
    apart from [errorCode], those that the failure owns enumerably, with
    the same values: under every other key the rejected error owns a
    property exactly when the failure owns one enumerably. A [message] or
    a [response] that the failure owns enumerably is so carried over; what
    the failure only inherits, or owns without its being enumerable, is
    not copied. *)
Theorem onRejected_with_response_keeps_properties
    (error : ErrorObject) (w : World) (k : jsstring) :
  truthy (responseOf error) = true ->
  k <> js "errorCode" ->
  exists ps : Props,
    fst (onRejected error w) = Rejected (JObj ps)
    /\ lookup k ps = lookup k (own error).
Proof.
  intros Hresp Hk. rewrite (onRejected_with_response error w Hresp).
  eexists. split; [reflexivity|].
  now rewrite lookup_define_other.
Qed.

Lemma onRejected_with_response_keeps_properties_example :
  exists ps : Props,
    fst (onRejected
           (failureWithResponse (JStr (js "Not Found")) (JNum num400))
           (mkWorld [] []))
    = Rejected (JObj ps)
    /\ lookup (js "message") ps = Some (JStr (js "Request failed")).
Proof.
  refine (onRejected_with_response_keeps_properties
            (failureWithResponse (JStr (js "Not Found")) (JNum num400))
            (mkWorld [] []) (js "message") eq_refl _).
  intros H; discriminate H.
Defined.


